(** * ScriptInit: the avatar control script of Space

    A shallow embedding of [SpaceContentGeneral/Misc/ScriptInit.py] and of
    the host interface it talks to.

    The script is three IronPython functions, [goto], [setBaseStat] and
    [desync].  Everything they do is a call into the host: the component
    [manager], the [avatar] entity and its [Transform] component, the
    [character] object, the interpreter's [sys.path] and the [random]
    module.  The embedding keeps the two sides apart:

    - a script is a tree of host calls ([Script]), translated from the
      source statement by statement;
    - the host is a [World] and a function [perform] giving the effect of
      one call on it; [run] executes a script against a world and records
      every call it issued together with the world that call left behind. *)

From Stdlib Require Import QArith.
From stdpp Require Import gmap strings list.

Local Open Scope nat_scope.
Local Open Scope string_scope.
Local Open Scope list_scope.

(** Entities are opaque handles handed out by the host. *)
Definition Entity : Type := nat.

(** The conditions a host call can raise.  [DanglingComponent] is what a
    method call on a component that is no longer attached gives; the
    script only calls methods on a component it has just resolved, so it
    never meets it (see [run_never_dangling]). *)
Inductive Error : Type :=
| ComponentNotFound
| InvalidStatType
| DanglingComponent.

(** The directory [desync] appends to the module search path. *)
Definition IronPythonLib : string :=
  "C:\Program Files (x86)\IronPython 2.7.1\Lib".

(** The numbers of the script: coordinates, stat values and random draws,
    with the addition [desync] applies to them, their order and the two
    ends of the interval the random generator draws from. *)
Class Number (num : Type) : Type := {
  num_add : num -> num -> num;
  num_zero : num;
  num_one : num;
  num_le : num -> num -> Prop;
  num_lt : num -> num -> Prop
}.

(** The bindings the host supplies when it loads the script: the [avatar]
    handle, and with the [character] the stat types it accepts. *)
Class Host (stat : Type) : Type := {
  avatar : Entity;
  valid_stat : stat -> bool
}.

Section Model.

Context {num : Type} {number : Number num}.
Context {stat : Type} {stat_eq : EqDecision stat} {stat_countable : Countable stat}.
Context {host : Host stat}.

(** ** Host state *)

Record Vector2 : Type := mkVector2 { X : num; Y : num }.

(** Modelled from the spec: the Transform component, which is host code.
    It holds the committed translation (what the [Translation] property
    reads) and the staged one, written by [SetTranslation] and copied over
    the committed one by [ApplyTranslation]. *)
Record TransformComponent : Type := mkTransform {
  Translation : Vector2;
  NextTranslation : Vector2
}.

Record World : Type := mkWorld {
  (* manager: the Transform component of each entity that has one *)
  components : gmap Entity TransformComponent;
  (* character: the base value of each stat *)
  base_values : gmap stat num;
  (* sys.path and sys.modules of the interpreter *)
  sys_path : list string;
  sys_modules : gset string;
  (* random: the draws the generator will produce, and how many of them
     have been taken *)
  random_source : nat -> num;
  random_cursor : nat
}.

Definition with_components (m : gmap Entity TransformComponent) (w : World) : World :=
  mkWorld m (base_values w) (sys_path w) (sys_modules w)
          (random_source w) (random_cursor w).

Definition with_base_values (b : gmap stat num) (w : World) : World :=
  mkWorld (components w) b (sys_path w) (sys_modules w)
          (random_source w) (random_cursor w).

Definition with_sys_path (p : list string) (w : World) : World :=
  mkWorld (components w) (base_values w) p (sys_modules w)
          (random_source w) (random_cursor w).

Definition with_sys_modules (s : gset string) (w : World) : World :=
  mkWorld (components w) (base_values w) (sys_path w) s
          (random_source w) (random_cursor w).

Definition with_random_cursor (n : nat) (w : World) : World :=
  mkWorld (components w) (base_values w) (sys_path w) (sys_modules w)
          (random_source w) n.

(** ** Host calls *)

(** The calls the script makes, indexed by what they return.
    [GetComponent e] is [manager.GetComponent(e, Transform.TypeId)]; the
    component it returns is referred to by the entity that owns it, so
    that two resolutions of the same component alias. *)
Inductive HostCall : Type -> Type :=
| GetComponent (e : Entity) : HostCall Entity
| GetTranslation (c : Entity) : HostCall Vector2
| SetTranslation (c : Entity) (x y : num) : HostCall unit
| ApplyTranslation (c : Entity) : HostCall unit
| SetBaseValue (type : stat) (value : num) : HostCall unit
| Import (module : string) : HostCall unit
| SysPathAppend (dir : string) : HostCall unit
| RandomRandom : HostCall num.

(** Modelled from the spec: the effect of each host call, which is host
    code.  Resolution fails with [ComponentNotFound] when the entity has no
    Transform; [SetTranslation] stages, [ApplyTranslation] commits the
    staged value by plain assignment; [SetBaseValue] rejects a stat type
    outside the host's domain and stores the value otherwise.  The
    interpreter's part is Python's: [import] registers the module,
    [sys.path.append] adds at the end, [random.random()] takes the next
    draw. *)
Definition perform {R : Type} (c : HostCall R) (w : World) : World * (Error + R) :=
  match c in HostCall R return World * (Error + R) with
  | GetComponent e =>
      match components w !! e with
      | Some _ => (w, inr e)
      | None => (w, inl ComponentNotFound)
      end
  | GetTranslation c =>
      match components w !! c with
      | Some t => (w, inr (Translation t))
      | None => (w, inl DanglingComponent)
      end
  | SetTranslation c x y =>
      match components w !! c with
      | Some t =>
          (with_components
             (<[c := mkTransform (Translation t) (mkVector2 x y)]> (components w)) w,
           inr tt)
      | None => (w, inl DanglingComponent)
      end
  | ApplyTranslation c =>
      match components w !! c with
      | Some t =>
          (with_components
             (<[c := mkTransform (NextTranslation t) (NextTranslation t)]> (components w)) w,
           inr tt)
      | None => (w, inl DanglingComponent)
      end
  | SetBaseValue type value =>
      if valid_stat type
      then (with_base_values (<[type := value]> (base_values w)) w, inr tt)
      else (w, inl InvalidStatType)
  | Import module =>
      (with_sys_modules ({[ module ]} ∪ sys_modules w) w, inr tt)
  | SysPathAppend dir =>
      (with_sys_path (sys_path w ++ [dir]) w, inr tt)
  | RandomRandom =>
      (with_random_cursor (S (random_cursor w)) w,
       inr (random_source w (random_cursor w)))
  end.

(** ** Scripts *)

Inductive Script (A : Type) : Type :=
| Return (a : A)
| Invoke {R : Type} (c : HostCall R) (k : R -> Script A).

Arguments Return {A} a.
Arguments Invoke {A R} c k.

Fixpoint bind {A B : Type} (s : Script A) (f : A -> Script B) : Script B :=
  match s with
  | Return a => f a
  | Invoke c k => Invoke c (fun r => bind (k r) f)
  end.

Definition call {R : Type} (c : HostCall R) : Script R := Invoke c Return.

#[global] Instance script_ret : MRet Script := @Return.
#[global] Instance script_bind : MBind Script := fun A B f s => bind s f.

(** One issued call, whatever it returns. *)
Inductive Event : Type :=
| Called {R : Type} (c : HostCall R).

(** What a run leaves: the world, the calls issued in order, each with the
    world as that call left it, and the value returned or the condition
    raised. *)
Record Run (A : Type) : Type := mkRun {
  final : World;
  steps : list (Event * World);
  outcome : Error + A
}.

Arguments mkRun {A} _ _ _.
Arguments final {A} _.
Arguments steps {A} _.
Arguments outcome {A} _.

Definition calls {A : Type} (r : Run A) : list Event := (steps r).*1.

Definition completed {A : Type} (r : Run A) : Prop :=
  exists a, outcome r = inr a.

(** The script handles no condition: one that is raised ends the run
    where it occurs. *)
Fixpoint run {A : Type} (s : Script A) (w : World) : Run A :=
  match s with
  | Return a => mkRun w [] (inr a)
  | Invoke c k =>
      match perform c w with
      | (w', inr r) =>
          let rest := run (k r) w' in
          mkRun (final rest) ((Called c, w') :: steps rest) (outcome rest)
      | (w', inl e) => mkRun w' [(Called c, w')] (inl e)
      end
  end.

(** ** The script *)

(** [def goto(x, y)] *)
Definition goto (x y : num) : Script unit :=
  component ← call (GetComponent avatar);
  call (SetTranslation component x y);;
  call (ApplyTranslation component).

(** [def setBaseStat(type, value)] *)
Definition setBaseStat (type : stat) (value : num) : Script unit :=
  call (SetBaseValue type value).

(** [def desync()].  Python evaluates the arguments of the call to [goto]
    from left to right, so the draw added to [X] is taken first. *)
Definition desync : Script unit :=
  call (Import "sys");;
  call (SysPathAppend IronPythonLib);;
  call (Import "random");;
  component ← call (GetComponent avatar);
  translation ← call (GetTranslation component);
  dx ← call RandomRandom;
  dy ← call RandomRandom;
  goto (num_add (X translation) dx) (num_add (Y translation) dy).

(** ** Entry points and observations *)

(** The callable surface of the script: the commands the host's scripting
    hook can trigger, with their positional parameters. *)
Inductive Command : Type :=
| Goto (x y : num)
| SetBaseStat (type : stat) (value : num)
| Desync.

Definition entry (cmd : Command) : Script unit :=
  match cmd with
  | Goto x y => goto x y
  | SetBaseStat type value => setBaseStat type value
  | Desync => desync
  end.

Definition is_desync (cmd : Command) : bool :=
  match cmd with Desync => true | _ => false end.

Definition moves_avatar (cmd : Command) : bool :=
  match cmd with SetBaseStat _ _ => false | _ => true end.

(** The scripting hook: the host triggers commands one after the other in
    one process; a condition raised by one of them goes to the host, and
    the next command runs in the world that one left. *)
Fixpoint process (cmds : list Command) (w : World) : World * list Event :=
  match cmds with
  | [] => (w, [])
  | cmd :: rest =>
      let r := run (entry cmd) w in
      ((process rest (final r)).1, calls r ++ (process rest (final r)).2)
  end.

(** The avatar's committed and staged translation, as the host reads them
    back. *)
Definition committed (w : World) : option Vector2 :=
  Translation <$> components w !! avatar.

Definition staged (w : World) : option Vector2 :=
  NextTranslation <$> components w !! avatar.

(** The avatar has a Transform and nothing is staged on it that is not
    committed. *)
Definition settled (w : World) : Prop :=
  exists t, components w !! avatar = Some t /\ NextTranslation t = Translation t.

(** The half-open interval from zero to one. *)
Definition unit_interval (d : num) : Prop :=
  num_le num_zero d /\ num_lt d num_one.

(** The fields of the host's entities the script can write. *)
Inductive Field : Type :=
| StagedTranslation (e : Entity)
| CommittedTranslation (e : Entity)
| BaseValue (type : stat).

Definition writes (ev : Event) : list Field :=
  match ev with
  | Called c =>
      match c with
      | SetTranslation e _ _ => [StagedTranslation e]
      | ApplyTranslation e => [CommittedTranslation e]
      | SetBaseValue type _ => [BaseValue type]
      | _ => []
      end
  end.

Definition entity_writes (trace : list Event) : list Field :=
  flat_map writes trace.

Definition touches_transform (ev : Event) : bool :=
  match ev with
  | Called c =>
      match c with
      | GetComponent _ | GetTranslation _ | SetTranslation _ _ _
      | ApplyTranslation _ => true
      | _ => false
      end
  end.

Definition touches_character (ev : Event) : bool :=
  match ev with
  | Called c => match c with SetBaseValue _ _ => true | _ => false end
  end.

Definition extends_path (ev : Event) : bool :=
  match ev with
  | Called c => match c with SysPathAppend _ => true | _ => false end
  end.

(** How many times a trace extends the module search path. *)
Definition path_extensions (trace : list Event) : nat :=
  length (List.filter extends_path trace).

(** What is shared in the process and belongs to no entity. *)
Definition interpreter_state (w : World) : list string * gset string * nat :=
  (sys_path w, sys_modules w, random_cursor w).

(** ** The worlds a run goes through *)

(** [goto x y] on a resolved Transform [t]: after staging, after commit. *)
Definition stage (x y : num) (t : TransformComponent) (w : World) : World :=
  with_components
    (<[avatar := mkTransform (Translation t) (mkVector2 x y)]> (components w)) w.

Definition commit (x y : num) (t : TransformComponent) (w : World) : World :=
  with_components
    (<[avatar := mkTransform (mkVector2 x y) (mkVector2 x y)]>
       (components (stage x y t w))) (stage x y t w).

(** [desync]: the interpreter after the two imports and the path
    extension, and after [n] draws. *)
Definition imported (w : World) : World :=
  let w1 := with_sys_modules ({[ "sys" ]} ∪ sys_modules w) w in
  let w2 := with_sys_path (sys_path w1 ++ [IronPythonLib]) w1 in
  with_sys_modules ({[ "random" ]} ∪ sys_modules w2) w2.

Definition drawn (n : nat) (w : World) : World :=
  with_random_cursor (n + random_cursor w) w.

Definition desync_prelude (w : World) : list (Event * World) :=
  let w1 := with_sys_modules ({[ "sys" ]} ∪ sys_modules w) w in
  let w2 := with_sys_path (sys_path w1 ++ [IronPythonLib]) w1 in
  [(Called (Import "sys"), w1);
   (Called (SysPathAppend IronPythonLib), w2);
   (Called (Import "random"), imported w);
   (Called (GetComponent avatar), imported w);
   (Called (GetTranslation avatar), imported w);
   (Called RandomRandom, drawn 1 (imported w));
   (Called RandomRandom, drawn 2 (imported w))].

(** ** Repeated [desync] *)

(** Where [n] calls of [desync] in a row take a position: each call adds
    the next draw to [X] and the one after it to [Y]. *)
Fixpoint drift (n : nat) (source : nat -> num) (cursor : nat) (v : Vector2) : Vector2 :=
  match n with
  | 0 => v
  | S n' =>
      drift n' source (2 + cursor)
            (mkVector2 (num_add (X v) (source cursor))
                       (num_add (Y v) (source (S cursor))))
  end.

End Model.

Arguments Return {num stat A} a.
Arguments Invoke {num stat A R} c k.
Arguments mkRun {num stat stat_eq stat_countable A} _ _ _.
Arguments final {num stat stat_eq stat_countable A} _.
Arguments steps {num stat stat_eq stat_countable A} _.
Arguments outcome {num stat stat_eq stat_countable A} _.

(** * A concrete host

    Rational numbers for the coordinates, four stat types numbered from
    zero, the avatar as entity 1, and a random source that yields 0.3, then
    0.7, then 0.5 for ever. *)

#[global] Instance Q_number : Number Q := {|
  num_add := Qplus;
  num_zero := 0%Q;
  num_one := 1%Q;
  num_le := Qle;
  num_lt := Qlt
|}.

#[global] Instance demo_host : Host nat := {|
  avatar := 1;
  valid_stat := fun type => Nat.ltb type 4
|}.

Definition demo_source (n : nat) : Q :=
  match n with
  | 0 => 3 # 10
  | 1 => 7 # 10
  | _ => 1 # 2
  end.

(** A fresh process with the avatar at rest at the given place. *)
Definition demo_world (at_x at_y : Q) : @World Q nat _ _ :=
  mkWorld (<[(1 : Entity) := mkTransform (mkVector2 at_x at_y) (mkVector2 at_x at_y)]> ∅)
          ∅ [] ∅ demo_source 0.

(** The same process before the avatar has a Transform, a translation
    being staged for another entity. *)
Definition demo_world_no_avatar : @World Q nat _ _ :=
  mkWorld (<[(2 : Entity) := mkTransform (mkVector2 1%Q 1%Q) (mkVector2 2%Q 2%Q)]> ∅)
          ∅ [] ∅ demo_source 0.

(** A process that differs from [demo_world 10 5] in everything but the
    avatar's committed translation and the next two draws. *)
Definition demo_world_other : @World Q nat _ _ :=
  mkWorld (<[(1 : Entity) := mkTransform (mkVector2 10%Q 5%Q) (mkVector2 0%Q 0%Q)]> ∅)
          (<[0 := 1%Q]> ∅) ["lib"] ∅ (fun n => demo_source (n - 3)) 3.

(** * Properties *)

Section Properties.

Context {num : Type} {number : Number num}.
Context {stat : Type} {stat_eq : EqDecision stat} {stat_countable : Countable stat}.
Context {host : Host stat}.

Implicit Types (x y a b value : num) (type : stat).
Implicit Types (w : @World num stat stat_eq stat_countable).
Implicit Types (t : @TransformComponent num) (cmd : @Command num stat).

(** ** What each entry point runs to *)

Lemma run_goto_resolved x y w t :
  components w !! avatar = Some t ->
  run (goto x y) w =
    mkRun (commit x y t w)
          [(Called (GetComponent avatar), w);
           (Called (SetTranslation avatar x y), stage x y t w);
           (Called (ApplyTranslation avatar), commit x y t w)]
          (inr tt).
Proof.
  intros Hres. unfold goto, call, mbind, script_bind. cbn.
  rewrite Hres. cbn. rewrite Hres. cbn.
  rewrite lookup_insert_eq. reflexivity.
Qed.

Lemma run_goto_unresolved x y w :
  components w !! avatar = None ->
  run (goto x y) w =
    mkRun w [(Called (GetComponent avatar), w)] (inl ComponentNotFound).
Proof.
  intros Hres. unfold goto, call, mbind, script_bind. cbn.
  rewrite Hres. reflexivity.
Qed.

Lemma goto_completed_resolved x y w :
  completed (run (goto x y) w) <-> is_Some (components w !! avatar).
Proof.
  destruct (components w !! avatar) as [t|] eqn:Hres.
  - rewrite (run_goto_resolved x y w t Hres).
    split; [eauto | intros _; exists tt; reflexivity].
  - rewrite (run_goto_unresolved x y w Hres). split.
    + intros [u Hu]. discriminate Hu.
    + intros [t Ht]. discriminate Ht.
Qed.

Lemma run_setBaseStat type value w :
  run (setBaseStat type value) w =
    if valid_stat type
    then let w' := with_base_values (<[type := value]> (base_values w)) w in
         mkRun w' [(Called (SetBaseValue type value), w')] (inr tt)
    else mkRun w [(Called (SetBaseValue type value), w)] (inl InvalidStatType).
Proof.
  unfold setBaseStat, call. cbn. destruct (valid_stat type); reflexivity.
Qed.

Lemma run_desync_unresolved w :
  components w !! avatar = None ->
  run desync w =
    mkRun (imported w) (take 4 (desync_prelude w)) (inl ComponentNotFound).
Proof.
  intros Hres. unfold desync, call, mbind, script_bind. cbn -[goto].
  rewrite Hres. reflexivity.
Qed.

Lemma run_desync_resolved w t :
  components w !! avatar = Some t ->
  let x := num_add (X (Translation t)) (random_source w (random_cursor w)) in
  let y := num_add (Y (Translation t)) (random_source w (S (random_cursor w))) in
  let w' := drawn 2 (imported w) in
  run desync w =
    mkRun (commit x y t w')
          (desync_prelude w ++
           [(Called (GetComponent avatar), w');
            (Called (SetTranslation avatar x y), stage x y t w');
            (Called (ApplyTranslation avatar), commit x y t w')])
          (inr tt).
Proof.
  intros Hres x y w'. subst x y w'.
  unfold desync, call, mbind, script_bind. cbn -[goto].
  rewrite Hres. cbn -[goto]. rewrite Hres. cbn -[goto].
  rewrite (run_goto_resolved _ _ _ t) by exact Hres.
  reflexivity.
Qed.

(** Case analysis on a command and on whether the avatar resolves,
    replacing the run by what it comes to. *)
Ltac run_entry cmd w :=
  let t := fresh "t" in
  let Hres := fresh "Hres" in
  destruct cmd as [?x ?y | ?type ?value | ];
  cbn [entry moves_avatar is_desync];
  [ destruct (components w !! avatar) as [t|] eqn:Hres;
    [ rewrite (run_goto_resolved _ _ w t Hres)
    | rewrite (run_goto_unresolved _ _ w Hres) ]
  | rewrite run_setBaseStat; destruct (valid_stat _) eqn:?
  | destruct (components w !! avatar) as [t|] eqn:Hres;
    [ rewrite (run_desync_resolved w t Hres)
    | rewrite (run_desync_unresolved w Hres) ] ].

(** No entry point calls a method on a component that is gone. *)
Lemma run_never_dangling cmd w :
  outcome (run (entry cmd) w) <> inl DanglingComponent.
Proof. run_entry cmd w; cbn; discriminate. Qed.

Lemma entry_path_extensions cmd w :
  path_extensions (calls (run (entry cmd) w)) = (if is_desync cmd then 1 else 0) /\
  sys_path (final (run (entry cmd) w)) =
    sys_path w ++ (if is_desync cmd then [IronPythonLib] else []).
Proof.
  run_entry cmd w; cbn; rewrite ?app_nil_r; split; reflexivity.
Qed.

Lemma path_extensions_app (l1 l2 : list (@Event num stat)) :
  path_extensions (l1 ++ l2) = path_extensions l1 + path_extensions l2.
Proof.
  unfold path_extensions. rewrite List.filter_app, length_app. reflexivity.
Qed.

(** ** [goto] *)

(** C1. For all coordinates [x], [y], a completed call [goto(x, y)] leaves
    the avatar's committed translation equal to [(x, y)], the host's commit
    being the plain assignment of the staged value. *)
Theorem goto_commits_target x y w :
  completed (run (goto x y) w) ->
  committed (final (run (goto x y) w)) = Some (mkVector2 x y).
Proof.
  intros Hdone. apply goto_completed_resolved in Hdone as [t Hres].
  rewrite (run_goto_resolved x y w t Hres).
  unfold committed, commit. cbn.
  rewrite lookup_insert_eq. reflexivity.
Qed.

(** C3. When the host cannot resolve the avatar's Transform, [goto] raises
    [ComponentNotFound] and changes nothing: the world it leaves is the
    world it started in, at every step, and no entity field was written. *)
Theorem goto_unresolved_changes_nothing x y w :
  components w !! avatar = None ->
  outcome (run (goto x y) w) = inl ComponentNotFound /\
  final (run (goto x y) w) = w /\
  Forall (fun step => step.2 = w) (steps (run (goto x y) w)) /\
  entity_writes (calls (run (goto x y) w)) = [] /\
  staged (final (run (goto x y) w)) = staged w /\
  committed (final (run (goto x y) w)) = committed w.
Proof.
  intros Hres. rewrite (run_goto_unresolved x y w Hres). cbn.
  repeat split; auto.
Qed.

(** C5. Every call [goto(x, y)] first resolves the avatar's Transform; when
    that fails it issues no other call, and otherwise it stages [(x, y)]
    over whatever was staged, the committed translation still being the
    old one, and only then commits it. *)
Theorem goto_resolves_stages_commits x y w :
  (components w !! avatar = None /\
   calls (run (goto x y) w) = [Called (GetComponent avatar)])
  \/
  (exists t w1 w2,
     components w !! avatar = Some t /\
     steps (run (goto x y) w) =
       [(Called (GetComponent avatar), w);
        (Called (SetTranslation avatar x y), w1);
        (Called (ApplyTranslation avatar), w2)] /\
     staged w1 = Some (mkVector2 x y) /\
     committed w1 = Some (Translation t) /\
     staged w2 = Some (mkVector2 x y) /\
     committed w2 = Some (mkVector2 x y) /\
     final (run (goto x y) w) = w2).
Proof.
  destruct (components w !! avatar) as [t|] eqn:Hres.
  - right. exists t, (stage x y t w), (commit x y t w).
    rewrite (run_goto_resolved x y w t Hres).
    unfold staged, committed, commit, stage. cbn.
    rewrite !lookup_insert_eq. repeat split; reflexivity.
  - left. rewrite (run_goto_unresolved x y w Hres). auto.
Qed.

(** ** [setBaseStat] *)

(** C4. For a stat type of the host's domain and any value,
    [setBaseStat(T, V)] issues the single call [SetBaseValue(T, V)], and
    the host then reads [V] for stat [T]. *)
Theorem setBaseStat_forwards type value w :
  valid_stat type = true ->
  calls (run (setBaseStat type value) w) = [Called (SetBaseValue type value)] /\
  completed (run (setBaseStat type value) w) /\
  base_values (final (run (setBaseStat type value) w)) !! type = Some value.
Proof.
  intros Hvalid. rewrite run_setBaseStat, Hvalid. cbn.
  repeat split.
  - exists tt. reflexivity.
  - apply lookup_insert_eq.
Qed.

(** ** [desync] *)

(** C2. With the avatar committed at [(a, b)], [desync] completes and does
    to the host's entities what [goto(a + dx, b + dy)] does, [dx] being the
    next draw of the random source and [dy] the one after it, both in the
    interval from zero to one, one excluded, as the source's draws are. *)
Theorem desync_is_goto_with_offsets w t a b :
  components w !! avatar = Some t ->
  Translation t = mkVector2 a b ->
  (forall n, unit_interval (random_source w n)) ->
  let dx := random_source w (random_cursor w) in
  let dy := random_source w (S (random_cursor w)) in
  let moved := run (goto (num_add a dx) (num_add b dy)) w in
  unit_interval dx /\ unit_interval dy /\
  completed (run desync w) /\
  outcome (run desync w) = outcome moved /\
  components (final (run desync w)) = components (final moved) /\
  base_values (final (run desync w)) = base_values (final moved) /\
  entity_writes (calls (run desync w)) = entity_writes (calls moved) /\
  committed (final (run desync w)) = Some (mkVector2 (num_add a dx) (num_add b dy)).
Proof.
  intros Hres Hab Hunit dx dy moved. subst dx dy moved.
  rewrite (run_desync_resolved w t Hres), (run_goto_resolved _ _ w t Hres).
  rewrite Hab. unfold committed, commit, stage. cbn.
  rewrite lookup_insert_eq.
  repeat split; try apply Hunit; try reflexivity.
  exists tt. reflexivity.
Qed.

(** C10. Two runs of [desync] that start from the same committed
    translation and get the same two draws in the same order end with the
    same committed translation. *)
Theorem desync_deterministic w1 w2 t1 t2 :
  components w1 !! avatar = Some t1 ->
  components w2 !! avatar = Some t2 ->
  Translation t1 = Translation t2 ->
  random_source w1 (random_cursor w1) = random_source w2 (random_cursor w2) ->
  random_source w1 (S (random_cursor w1)) = random_source w2 (S (random_cursor w2)) ->
  completed (run desync w1) /\ completed (run desync w2) /\
  committed (final (run desync w1)) = committed (final (run desync w2)).
Proof.
  intros Hres1 Hres2 Htr Hdx Hdy.
  rewrite (run_desync_resolved w1 t1 Hres1), (run_desync_resolved w2 t2 Hres2).
  unfold committed, commit, stage. cbn.
  rewrite !lookup_insert_eq, Htr, Hdx, Hdy.
  repeat split; try (exists tt); reflexivity.
Qed.

(** ** Every entry point *)

(** C8. After a completed [goto] or [desync] the avatar's staged
    translation is its committed one. *)
Theorem move_leaves_nothing_staged cmd w :
  moves_avatar cmd = true ->
  completed (run (entry cmd) w) ->
  settled (final (run (entry cmd) w)).
Proof.
  intros Hmove Hdone. revert Hmove Hdone.
  run_entry cmd w; cbn; intros Hmove [[] Hdone]; try discriminate.
  - eexists. unfold commit. cbn. rewrite lookup_insert_eq. split; reflexivity.
  - eexists. unfold commit. cbn. rewrite lookup_insert_eq. split; reflexivity.
Qed.

(** C9. [goto] and [desync] issue no call on the character and leave its
    stats as they were; [setBaseStat] issues no call on the manager or a
    Transform, leaves every component as it was, and cannot raise
    [ComponentNotFound]. *)
Theorem surfaces_do_not_interfere cmd w :
  if moves_avatar cmd
  then forallb (fun ev => negb (touches_character ev))
               (calls (run (entry cmd) w)) = true /\
       base_values (final (run (entry cmd) w)) = base_values w
  else forallb (fun ev => negb (touches_transform ev))
               (calls (run (entry cmd) w)) = true /\
       components (final (run (entry cmd) w)) = components w /\
       outcome (run (entry cmd) w) <> inl ComponentNotFound.
Proof.
  run_entry cmd w; cbn; repeat split; discriminate.
Qed.

(** C6, as the code has it.  Every entry point writes each entity field
    at most once.  [goto] and [setBaseStat] change nothing outside the
    entities; [desync] does: it appends one directory to the module search
    path, loads two modules and, when the avatar resolves, takes two draws
    from the random source. *)
Theorem entry_writes_once_and_outside_state cmd w :
  NoDup (entity_writes (calls (run (entry cmd) w))) /\
  random_source (final (run (entry cmd) w)) = random_source w /\
  if is_desync cmd
  then sys_path (final (run (entry cmd) w)) = sys_path w ++ [IronPythonLib] /\
       sys_modules (final (run (entry cmd) w)) =
         {[ "random" ]} ∪ ({[ "sys" ]} ∪ sys_modules w) /\
       random_cursor (final (run (entry cmd) w)) =
         match components w !! avatar with
         | Some _ => 2 + random_cursor w
         | None => random_cursor w
         end
  else interpreter_state (final (run (entry cmd) w)) = interpreter_state w.
Proof.
  run_entry cmd w; cbn; repeat split;
    rewrite ?NoDup_cons, ?NoDup_nil, ?not_elem_of_cons;
    repeat split; try apply not_elem_of_nil; discriminate.
Qed.

(** C7, as the code has it.  The search path is extended by every call of
    [desync], completed or not: over any sequence of commands in one
    process the path is extended once per [desync] in the sequence, and
    ends that many copies of the directory longer. *)
Theorem desync_extends_path_every_call (cmds : list (@Command num stat)) w :
  let n := length (List.filter is_desync cmds) in
  path_extensions (process cmds w).2 = n /\
  sys_path (process cmds w).1 = sys_path w ++ replicate n IronPythonLib.
Proof.
  revert w. induction cmds as [|cmd rest IH]; intros w;
    cbn [process fst snd List.filter].
  - cbn. rewrite app_nil_r. split; reflexivity.
  - destruct (IH (final (run (entry cmd) w))) as [IHn IHpath].
    destruct (entry_path_extensions cmd w) as [Hn Hpath].
    rewrite path_extensions_app, IHn, IHpath, Hn, Hpath.
    destruct (is_desync cmd); cbn; rewrite <- ?app_assoc, ?app_nil_r;
      split; reflexivity.
Qed.

(** ** Beyond the claims: failure, frames and composition *)

Lemma entry_dom cmd w :
  dom (components (final (run (entry cmd) w))) = dom (components w).
Proof.
  assert (Hin : avatar ∈ dom (components w) ->
                 {[avatar]} ∪ dom (components w) = dom (components w)).
  { intros Ht. apply subseteq_union_1_L, singleton_subseteq_l. exact Ht. }
  run_entry cmd w; cbn; try reflexivity;
    rewrite !dom_insert_L, !(Hin (elem_of_dom_2 _ _ _ Hres)); reflexivity.
Qed.

Lemma entry_cursor cmd w :
  random_source (final (run (entry cmd) w)) = random_source w /\
  random_cursor (final (run (entry cmd) w)) =
    match components w !! avatar with
    | Some _ => (if is_desync cmd then 2 else 0) + random_cursor w
    | None => random_cursor w
    end.
Proof.
  run_entry cmd w; cbn; rewrite ?Hres; try (split; reflexivity);
    destruct (components w !! avatar); split; reflexivity.
Qed.

Lemma entry_resolution cmd w :
  is_Some (components (final (run (entry cmd) w)) !! avatar) <->
  is_Some (components w !! avatar).
Proof. rewrite <- !elem_of_dom, entry_dom. reflexivity. Qed.


(** X2. A [desync] that fails is not without effect: when the avatar's
    Transform does not resolve, the search path has been extended and the
    two modules loaded before [ComponentNotFound] is raised, while no draw
    has been taken and no entity has been touched. *)
Theorem desync_unresolved_partial_effect w :
  components w !! avatar = None ->
  outcome (run desync w) = inl ComponentNotFound /\
  sys_path (final (run desync w)) = sys_path w ++ [IronPythonLib] /\
  sys_modules (final (run desync w)) = {[ "random" ]} ∪ ({[ "sys" ]} ∪ sys_modules w) /\
  random_cursor (final (run desync w)) = random_cursor w /\
  components (final (run desync w)) = components w /\
  base_values (final (run desync w)) = base_values w /\
  calls (run desync w) =
    [Called (Import "sys"); Called (SysPathAppend IronPythonLib);
     Called (Import "random"); Called (GetComponent avatar)].
Proof.
  intros Hres. rewrite (run_desync_unresolved w Hres). cbn.
  repeat split; reflexivity.
Qed.

(** X3. A completed [desync] issues ten calls: it resolves the Transform
    and reads the translation before it draws, draws twice, and resolves
    the Transform a second time, through [goto], before staging and
    committing. *)
Theorem desync_call_sequence w t :
  components w !! avatar = Some t ->
  exists x y,
    calls (run desync w) =
      [Called (Import "sys"); Called (SysPathAppend IronPythonLib);
       Called (Import "random");
       Called (GetComponent avatar); Called (GetTranslation avatar);
       Called RandomRandom; Called RandomRandom;
       Called (GetComponent avatar); Called (SetTranslation avatar x y);
       Called (ApplyTranslation avatar)] /\
    x = num_add (X (Translation t)) (random_source w (random_cursor w)) /\
    y = num_add (Y (Translation t)) (random_source w (S (random_cursor w))).
Proof.
  intros Hres. rewrite (run_desync_resolved w t Hres). cbn.
  eexists _, _. repeat split; reflexivity.
Qed.

(** X4. The last [goto] wins: [goto(x1, y1)] followed by [goto(x2, y2)]
    leaves the world [goto(x2, y2)] alone leaves; in particular [goto] is
    idempotent. *)
Theorem goto_last_wins x1 y1 x2 y2 w :
  (process [Goto x1 y1; Goto x2 y2] w).1 = final (run (goto x2 y2) w).
Proof.
  cbn [process fst entry].
  destruct (components w !! avatar) as [t|] eqn:Hres.
  - rewrite (run_goto_resolved x1 y1 w t Hres). cbn [final].
    assert (Hres' : components (commit x1 y1 t w) !! avatar
                    = Some (mkTransform (mkVector2 x1 y1) (mkVector2 x1 y1)))
      by (unfold commit; cbn; apply lookup_insert_eq).
    rewrite (run_goto_resolved x2 y2 _ _ Hres'),
            (run_goto_resolved x2 y2 w t Hres).
    unfold commit, stage, with_components. cbn.
    rewrite !insert_insert_eq. reflexivity.
  - rewrite (run_goto_unresolved x1 y1 w Hres). cbn [final].
    reflexivity.
Qed.

(** X5. No entry point touches the Transform of an entity other than the
    avatar. *)
Theorem entry_frames_other_entities cmd w (e : Entity) :
  e <> avatar ->
  components (final (run (entry cmd) w)) !! e = components w !! e.
Proof.
  intros Hne. run_entry cmd w; cbn; try reflexivity;
    rewrite !lookup_insert_ne by (intros Heq; apply Hne; symmetry; exact Heq);
    reflexivity.
Qed.

(** X6. The script creates and destroys no component: over any sequence
    of commands the entities that have a Transform stay the same, so the
    avatar resolves at the end exactly when it did at the start. *)
Theorem process_keeps_entities (cmds : list (@Command num stat)) w :
  dom (components (process cmds w).1) = dom (components w) /\
  (is_Some (components (process cmds w).1 !! avatar) <->
   is_Some (components w !! avatar)).
Proof.
  assert (Hdom : forall w0, dom (components (process cmds w0).1) = dom (components w0)).
  { induction cmds as [|cmd rest IH]; intros w0; cbn [process fst].
    - reflexivity.
    - rewrite IH. apply entry_dom. }
  split; [apply Hdom|].
  rewrite <- !elem_of_dom, Hdom. reflexivity.
Qed.

(** X7. Over any sequence of commands the random source gives two draws
    to each [desync] when the avatar resolves, and none at all when it
    does not; no other command draws. *)
Theorem process_draws (cmds : list (@Command num stat)) w :
  random_source (process cmds w).1 = random_source w /\
  random_cursor (process cmds w).1 =
    match components w !! avatar with
    | Some _ => 2 * length (List.filter is_desync cmds) + random_cursor w
    | None => random_cursor w
    end.
Proof.
  revert w. induction cmds as [|cmd rest IH]; intros w;
    cbn [process fst List.filter].
  - destruct (components w !! avatar); split; reflexivity.
  - destruct (IH (final (run (entry cmd) w))) as [IHsrc IHcur].
    destruct (entry_cursor cmd w) as [Hsrc Hcur].
    pose proof (entry_resolution cmd w) as Hstable.
    rewrite IHsrc, IHcur, Hsrc, Hcur. split; [reflexivity|].
    destruct (components w !! avatar) as [t|] eqn:Hres.
    + destruct (components (final (run (entry cmd) w)) !! avatar) as [t'|].
      * destruct (is_desync cmd); cbn [length]; lia.
      * exfalso. destruct (proj2 Hstable) as [? Hsome]; [eauto | discriminate Hsome].
    + destruct (components (final (run (entry cmd) w)) !! avatar) as [t'|].
      * exfalso. destruct (proj1 Hstable) as [? Hsome]; [eauto | discriminate Hsome].
      * reflexivity.
Qed.

(** X8. A command leaves every stat it does not set as it was: only
    [setBaseStat(T, _)] can change stat [T]. *)
Theorem entry_frames_other_stats cmd w type :
  (forall value, cmd <> SetBaseStat type value) ->
  base_values (final (run (entry cmd) w)) !! type = base_values w !! type.
Proof.
  intros Hother. run_entry cmd w; cbn; try reflexivity.
  apply lookup_insert_ne. intros Heq. subst.
  exact (Hother _ eq_refl).
Qed.

(** X9. The last [setBaseStat] on a stat wins: setting a stat twice leaves
    the world the second call alone leaves. *)
Theorem setBaseStat_last_wins type value1 value2 w :
  (process [SetBaseStat type value1; SetBaseStat type value2] w).1 =
  final (run (setBaseStat type value2) w).
Proof.
  cbn [process fst entry]. rewrite !run_setBaseStat.
  destruct (valid_stat type) eqn:Hvalid; cbn;
    rewrite ?run_setBaseStat, ?Hvalid; cbn; [|reflexivity].
  unfold with_base_values. cbn. rewrite insert_insert_eq. reflexivity.
Qed.

(** X10. Calls of [setBaseStat] on different stats commute. *)
Theorem setBaseStat_commute type1 value1 type2 value2 w :
  type1 <> type2 ->
  (process [SetBaseStat type1 value1; SetBaseStat type2 value2] w).1 =
  (process [SetBaseStat type2 value2; SetBaseStat type1 value1] w).1.
Proof.
  intros Hne. cbn [process fst entry]. rewrite !run_setBaseStat.
  destruct (valid_stat type1) eqn:H1; destruct (valid_stat type2) eqn:H2;
    cbn; rewrite ?run_setBaseStat, ?H1, ?H2; cbn; try reflexivity.
  unfold with_base_values. cbn.
  rewrite (insert_insert_ne (base_values w) type1 type2) by exact Hne.
  reflexivity.
Qed.

(** X11. Moving the avatar and setting a stat commute: a [goto] or a
    [desync] followed by a [setBaseStat] leaves the world the two leave
    in the other order, whether or not either of them fails. *)
Theorem move_and_setBaseStat_commute cmd type value w :
  moves_avatar cmd = true ->
  (process [cmd; SetBaseStat type value] w).1 =
  (process [SetBaseStat type value; cmd] w).1.
Proof.
  intros Hmove. cbn [process fst].
  destruct cmd as [x y | type' value' | ]; [ | discriminate Hmove | ];
    cbn [entry]; rewrite !run_setBaseStat;
    destruct (valid_stat type) eqn:Hvalid;
    destruct (components w !! avatar) as [t|] eqn:Hres; cbn [final].
  - rewrite (run_goto_resolved x y w t Hres).
    rewrite (run_goto_resolved x y (with_base_values _ w) t Hres). reflexivity.
  - rewrite (run_goto_unresolved x y w Hres).
    rewrite (run_goto_unresolved x y (with_base_values _ w) Hres). reflexivity.
  - rewrite (run_goto_resolved x y w t Hres). reflexivity.
  - rewrite (run_goto_unresolved x y w Hres). reflexivity.
  - rewrite (run_desync_resolved w t Hres).
    rewrite (run_desync_resolved (with_base_values _ w) t Hres). reflexivity.
  - rewrite (run_desync_unresolved w Hres).
    rewrite (run_desync_unresolved (with_base_values _ w) Hres). reflexivity.
  - rewrite (run_desync_resolved w t Hres). reflexivity.
  - rewrite (run_desync_unresolved w Hres). reflexivity.
Qed.

(** X12. Calls of [desync] accumulate: [n] calls in a row from a
    committed position end committed, with nothing staged, where the
    position drifts to by adding to it two draws per call, in the order
    the source gives them. *)
Theorem desync_repeated_drifts (n : nat) w t :
  components w !! avatar = Some t ->
  NextTranslation t = Translation t ->
  components (process (replicate n Desync) w).1 !! avatar =
    Some (let v := drift n (random_source w) (random_cursor w) (Translation t) in
          mkTransform v v).
Proof.
  revert w t. induction n as [|n IH]; intros w t Hres Hsettled;
    cbn [replicate process fst entry drift].
  - rewrite Hres. destruct t as [v v']. cbn in *. subst v'. reflexivity.
  - rewrite (run_desync_resolved w t Hres). cbn [final].
    match goal with
    | |- components (process _ (commit ?x ?y t ?w')).1 !! avatar = _ =>
        assert (Hres' : components (commit x y t w') !! avatar
                        = Some (mkTransform (mkVector2 x y) (mkVector2 x y)))
          by (unfold commit; cbn; apply lookup_insert_eq);
        rewrite (IH (commit x y t w') _ Hres' eq_refl)
    end.
    reflexivity.
Qed.

End Properties.

(** * The concrete host at work *)

Lemma demo_source_unit (n : nat) : unit_interval (demo_source n).
Proof.
  destruct n as [|[|n]]; split; vm_compute; (discriminate || reflexivity).
Qed.

(** [goto(12.5, 5.0)] with the avatar at [(10.0, 5.0)]. *)
Lemma goto_commits_target_witness :
  completed (run (goto (25 # 2) 5%Q) (demo_world 10 5)) /\
  committed (final (run (goto (25 # 2) 5%Q) (demo_world 10 5)))
    = Some (mkVector2 (25 # 2) 5%Q).
Proof.
  assert (Hdone : completed (run (goto (25 # 2) 5%Q) (demo_world 10 5)))
    by (exists tt; reflexivity).
  split; [exact Hdone|].
  exact (goto_commits_target (25 # 2) 5%Q (demo_world 10 5) Hdone).
Defined.

(** [desync()] with the avatar at [(0.0, 0.0)] and the draws 0.3 and 0.7. *)
Lemma desync_is_goto_with_offsets_witness :
  components (demo_world 0 0) !! avatar
    = Some (mkTransform (mkVector2 0%Q 0%Q) (mkVector2 0%Q 0%Q)) /\
  (forall n, unit_interval (random_source (demo_world 0 0) n)) /\
  completed (run desync (demo_world 0 0)) /\
  committed (final (run desync (demo_world 0 0)))
    = Some (mkVector2 (3 # 10) (7 # 10)).
Proof.
  assert (Hres : components (demo_world 0 0) !! avatar
                 = Some (mkTransform (mkVector2 0%Q 0%Q) (mkVector2 0%Q 0%Q)))
    by reflexivity.
  pose proof (desync_is_goto_with_offsets (demo_world 0 0) _ 0%Q 0%Q
                Hres eq_refl demo_source_unit) as Hclaim.
  cbv zeta in Hclaim.
  destruct Hclaim as (_ & _ & Hdone & _ & _ & _ & _ & Hpos).
  split; [exact Hres|].
  split; [exact demo_source_unit|].
  split; [exact Hdone | exact Hpos].
Defined.

(** [goto(3, 4)] before the avatar has a Transform. *)
Lemma goto_unresolved_changes_nothing_witness :
  components demo_world_no_avatar !! avatar = None /\
  outcome (run (goto 3%Q 4%Q) demo_world_no_avatar) = inl ComponentNotFound /\
  final (run (goto 3%Q 4%Q) demo_world_no_avatar) = demo_world_no_avatar.
Proof.
  assert (Hres : components demo_world_no_avatar !! avatar = None) by reflexivity.
  destruct (goto_unresolved_changes_nothing 3%Q 4%Q demo_world_no_avatar Hres)
    as (Hout & Hfinal & _).
  split; [exact Hres|].
  split; [exact Hout | exact Hfinal].
Defined.

(** [setBaseStat(2, 2.25)]. *)
Lemma setBaseStat_forwards_witness :
  valid_stat 2 = true /\
  base_values (final (run (setBaseStat 2 (9 # 4)) (demo_world 0 0))) !! 2
    = Some (9 # 4).
Proof.
  assert (Hvalid : valid_stat 2 = true) by reflexivity.
  split; [exact Hvalid|].
  exact (proj2 (proj2 (setBaseStat_forwards 2 (9 # 4) (demo_world 0 0) Hvalid))).
Defined.

(** [desync()] with the avatar at [(10.0, 5.0)]. *)
Lemma move_leaves_nothing_staged_witness :
  completed (run (entry Desync) (demo_world 10 5)) /\
  settled (final (run (entry Desync) (demo_world 10 5))).
Proof.
  assert (Hdone : completed (run (entry Desync) (demo_world 10 5)))
    by (exists tt; reflexivity).
  split; [exact Hdone|].
  exact (move_leaves_nothing_staged Desync (demo_world 10 5) eq_refl Hdone).
Defined.

(** [desync()] in two processes that agree on the avatar's place and on
    the next two draws only. *)
Lemma desync_deterministic_witness :
  committed (final (run desync (demo_world 10 5)))
    = committed (final (run desync demo_world_other)) /\
  committed (final (run desync demo_world_other))
    = Some (mkVector2 (103 # 10) (57 # 10)).
Proof.
  split.
  - exact (proj2 (proj2
      (desync_deterministic (demo_world 10 5) demo_world_other _ _
         eq_refl eq_refl eq_refl eq_refl eq_refl))).
  - reflexivity.
Defined.

(** ** Where the code departs from the specification *)

(** C6 as stated fails: [desync] leaves the state that is shared in the
    process and outside every entity different from how it found it. *)
Lemma desync_changes_interpreter_state :
  ~ (interpreter_state (final (run (entry Desync) (demo_world 0 0)))
     = interpreter_state (demo_world 0 0)).
Proof.
  intros Hsame. apply (f_equal (fun s => length s.1.1)) in Hsame.
  vm_compute in Hsame. discriminate Hsame.
Qed.

(** C7 as stated fails: two calls of [desync] in one process extend the
    search path twice. *)
Lemma two_desyncs_extend_path_twice :
  ~ (path_extensions (process [Desync; Desync] (demo_world 0 0)).2 <= 1).
Proof.
  assert (Htwice : path_extensions (process [Desync; Desync] (demo_world 0 0)).2 = 2)
    by reflexivity.
  rewrite Htwice. lia.
Qed.

(** ** Beyond the claims *)

(** [desync()] before the avatar has a Transform. *)
Lemma desync_unresolved_partial_effect_witness :
  components demo_world_no_avatar !! avatar = None /\
  outcome (run desync demo_world_no_avatar) = inl ComponentNotFound /\
  sys_path (final (run desync demo_world_no_avatar)) = [IronPythonLib] /\
  random_cursor (final (run desync demo_world_no_avatar)) = 0.
Proof.
  assert (Hres : components demo_world_no_avatar !! avatar = None) by reflexivity.
  destruct (desync_unresolved_partial_effect demo_world_no_avatar Hres)
    as (Hout & Hpath & _ & Hcur & _).
  split; [exact Hres|].
  split; [exact Hout|].
  split; [exact Hpath | exact Hcur].
Defined.

(** [desync()] with the avatar at [(10.0, 5.0)]. *)
Lemma desync_call_sequence_witness :
  exists x y,
    calls (run desync (demo_world 10 5)) =
      [Called (Import "sys"); Called (SysPathAppend IronPythonLib);
       Called (Import "random");
       Called (GetComponent avatar); Called (GetTranslation avatar);
       Called RandomRandom; Called RandomRandom;
       Called (GetComponent avatar); Called (SetTranslation avatar x y);
       Called (ApplyTranslation avatar)] /\
    x = (103 # 10) /\ y = (57 # 10).
Proof.
  exact (desync_call_sequence (demo_world 10 5) _ eq_refl).
Defined.

(** [goto(3, 4)] leaves entity 2 alone. *)
Lemma entry_frames_other_entities_witness :
  (2 : Entity) <> avatar /\
  components (final (run (entry (Goto 3%Q 4%Q)) (demo_world 0 0))) !! (2 : Entity)
    = components (demo_world 0 0) !! (2 : Entity).
Proof.
  assert (Hne : (2 : Entity) <> avatar) by discriminate.
  split; [exact Hne|].
  exact (entry_frames_other_entities (Goto 3%Q 4%Q) (demo_world 0 0) 2 Hne).
Defined.

(** [setBaseStat(1, 7)] leaves stat 0 alone. *)
Lemma entry_frames_other_stats_witness :
  base_values (final (run (entry (SetBaseStat 1 7%Q)) demo_world_other)) !! 0
    = Some 1%Q.
Proof.
  assert (Hother : forall value : Q, SetBaseStat 1 7%Q <> SetBaseStat 0 value)
    by (intros value Heq; discriminate Heq).
  exact (entry_frames_other_stats (SetBaseStat 1 7%Q) demo_world_other 0 Hother).
Defined.

(** [setBaseStat(1, 7)] and [setBaseStat(2, 9)] in either order. *)
Lemma setBaseStat_commute_witness :
  1 <> 2 /\
  (process [SetBaseStat 1 7%Q; SetBaseStat 2 9%Q] (demo_world 0 0)).1 =
  (process [SetBaseStat 2 9%Q; SetBaseStat 1 7%Q] (demo_world 0 0)).1.
Proof.
  assert (Hne : 1 <> 2) by discriminate.
  split; [exact Hne|].
  exact (setBaseStat_commute 1 7%Q 2 9%Q (demo_world 0 0) Hne).
Defined.

(** [desync()] then [setBaseStat(1, 7)], and the other way round. *)
Lemma move_and_setBaseStat_commute_witness :
  (process [Desync; SetBaseStat 1 7%Q] (demo_world 0 0)).1 =
  (process [SetBaseStat 1 7%Q; Desync] (demo_world 0 0)).1.
Proof.
  exact (move_and_setBaseStat_commute Desync 1 7%Q (demo_world 0 0) eq_refl).
Defined.

(** Two calls of [desync()] from [(0.0, 0.0)]: 0.3 and 0.5 on [X], 0.7 and
    0.5 on [Y]. *)
Lemma desync_repeated_drifts_witness :
  components (process (replicate 2 Desync) (demo_world 0 0)).1 !! avatar =
    Some (mkTransform (mkVector2 (16 # 20) (24 # 20))
                      (mkVector2 (16 # 20) (24 # 20))).
Proof.
  exact (desync_repeated_drifts 2 (demo_world 0 0) _ eq_refl eq_refl).
Defined.
